(** * bucketbench: container drivers and benchmark construction

    A shallow embedding of the [driver] package (the Docker and Garden
    drivers) and of the [benches] package's constructor, together with the
    properties the specification of the tool states about them.

    Go strings are byte strings, modelled as [string]; Go's [int] as [Z];
    a Go [error] value as [option error], [None] being [nil].  The drivers
    reach the container engine only through the [utils] package and
    [os/exec]; those calls are an interface ([Utils]) over an abstract
    world, and every call through it is recorded in a ghost trace so that
    statements can speak about the commands a driver issues. *)

From Stdlib Require Import String Ascii List ZArith Bool Lia.
From Stdlib Require Import DecimalString.
Import ListNotations.
Local Open Scope list_scope.
Local Open Scope string_scope.

(** ** Go's string library, as far as the drivers use it *)

Module GoStrings.

Definition nl : string := String (ascii_of_nat 10) EmptyString.

(** [strings.Contains(s, substr)] *)
Fixpoint Contains (s substr : string) : bool :=
  String.prefix substr s
  || match s with
     | EmptyString => false
     | String _ rest => Contains rest substr
     end.

(** [strings.Split(s, sep)] for a one-byte separator: every segment is
    kept, also the empty ones, so the result is never empty. *)
Fixpoint Split (s : string) (sep : ascii) : list string :=
  match s with
  | EmptyString => [EmptyString]
  | String c rest =>
      if Ascii.eqb c sep then EmptyString :: Split rest sep
      else match Split rest sep with
           | seg :: segs => String c seg :: segs
           | [] => [String c EmptyString]
           end
  end.

(** [strings.Join(elems, sep)] *)
Fixpoint Join (elems : list string) (sep : string) : string :=
  match elems with
  | [] => EmptyString
  | [e] => e
  | e :: rest => e ++ sep ++ Join rest sep
  end.

(** The white space [strings.TrimSpace] removes, restricted to the
    one-byte characters: tab, line feed, vertical tab, form feed,
    carriage return and space.  (The multi-byte Unicode spaces it also
    removes are ordinary bytes here.) *)
Definition isSpace (c : ascii) : bool :=
  let n := nat_of_ascii c in
  ((9 <=? n) && (n <=? 13))%nat || (n =? 32)%nat.

Fixpoint trimLeft (s : string) : string :=
  match s with
  | EmptyString => EmptyString
  | String c rest => if isSpace c then trimLeft rest else s
  end.

Fixpoint trimRight (s : string) : string :=
  match s with
  | EmptyString => EmptyString
  | String c rest =>
      match trimRight rest with
      | EmptyString => if isSpace c then EmptyString else String c EmptyString
      | t => String c t
      end
  end.

(** [strings.TrimSpace(s)] *)
Definition TrimSpace (s : string) : string := trimRight (trimLeft s).

(** [dropCR] of [bufio]: one trailing carriage return is removed. *)
Fixpoint dropCR (s : string) : string :=
  match s with
  | EmptyString => EmptyString
  | String c EmptyString =>
      if (nat_of_ascii c =? 13)%nat then EmptyString else s
  | String c rest => String c (dropCR rest)
  end.

Fixpoint dropLastEmpty (segs : list string) : list string :=
  match segs with
  | [] => []
  | [EmptyString] => []
  | seg :: rest => seg :: dropLastEmpty rest
  end.

(** The lines a [bufio.Scanner] over [strings.NewReader(s)] yields with
    its default split function: the text is cut at line feeds, text after
    the last line feed is a line when it is not empty, and each line loses
    one trailing carriage return.  (A scanner gives up at a line longer
    than its buffer of 64 KiB; such lines are outside this model.) *)
Definition ScanLines (s : string) : list string :=
  map dropCR (dropLastEmpty (Split s (ascii_of_nat 10))).

(** The decimal rendering [fmt] gives an integer under [%v]. *)
Definition FormatInt (z : Z) : string := NilZero.string_of_int (Z.to_int z).

End GoStrings.
Import GoStrings.

(** ** Errors, the world outside the process, and the Go monad *)

(** A non-nil Go [error], as [errors.New] and [fmt.Errorf] build it. *)
Inductive error : Type := errorString (s : string).

Definition Error (e : error) : string := let 'errorString s := e in s.

(** One call that left the process. *)
Inductive Call : Type :=
| CallResolveBinary (binary : string)
| CallExecCmd (cmd args : string)
| CallExecShellCmd (cmd : string)
| CallExecTimedCmd (cmd args : string)
| CallCombinedOutput (path : string) (args : list string).

(** A call with what came back from it. *)
Record Event : Type := mkEvent {
  ev_call : Call;
  ev_out : string;
  ev_err : option error
}.

Inductive Level : Type := InfoLevel | WarnLevel.

(** Modelled from the spec: package [utils] ([ResolveBinary], [ExecCmd],
    [ExecShellCmd], [ExecTimedCmd]) is not among the sources; the spec calls
    it a thin wrapper that runs a command and returns output, exit status
    and elapsed wall time.  Together with
    [exec.Command(path, args...).CombinedOutput()] of the Go library it is
    the whole interface the drivers have to the world, and it is left
    abstract: each function takes the world, answers, and leaves a new
    world. *)
Class Utils (W : Type) : Type := {
  ResolveBinary : string -> W -> (string * option error) * W;
  ExecCmd : string -> string -> W -> (string * option error) * W;
  ExecShellCmd : string -> W -> (string * option error) * W;
  ExecTimedCmd : string -> string -> W -> (string * Z * option error) * W;
  CombinedOutput : string -> list string -> W -> (string * option error) * W
}.

(** The state a driver call runs in: the world, the ghost trace of the calls
    issued so far (oldest first) and the lines written to the logger. *)
Record St (W : Type) : Type := mkSt {
  st_world : W;
  st_trace : list Event;
  st_logs : list (Level * string)
}.
Arguments mkSt {W} _ _ _.
Arguments st_world {W} _.
Arguments st_trace {W} _.
Arguments st_logs {W} _.

(** A Go call either returns or panics. *)
Inductive Outcome (A : Type) : Type :=
| Returned (a : A)
| Panicked (msg : string).
Arguments Returned {A} _.
Arguments Panicked {A} _.

Definition Go (W A : Type) : Type := St W -> Outcome A * St W.

Definition ret {W A} (a : A) : Go W A := fun st => (Returned a, st).

Definition bind {W A B} (m : Go W A) (k : A -> Go W B) : Go W B :=
  fun st =>
    match m st with
    | (Returned a, st') => k a st'
    | (Panicked msg, st') => (Panicked msg, st')
    end.

Definition panic {W A} (msg : string) : Go W A := fun st => (Panicked msg, st).

Declare Scope go_scope.
Delimit Scope go_scope with go.
Notation "x <- m ;; k" := (bind m (fun x => k))
  (at level 100, m at next level, right associativity) : go_scope.
Notation "' p <- m ;; k" := (bind m (fun x => let p := x in k))
  (at level 100, p pattern, m at next level, right associativity) : go_scope.
Notation "m ;; k" := (bind m (fun _ => k))
  (at level 100, right associativity) : go_scope.
Local Open Scope go_scope.

Section Primitives.
Context {W : Type} `{Utils W}.

(** Run a world call and append it, with its answer, to the trace. *)
Definition issue (c : Call) (f : W -> (string * option error) * W)
  : Go W (string * option error) :=
  fun st =>
    let '((out, err), w') := f (st_world st) in
    (Returned (out, err),
     mkSt w' (st_trace st ++ [mkEvent c out err])%list (st_logs st)).

Definition resolveBinary (binary : string) : Go W (string * option error) :=
  issue (CallResolveBinary binary) (ResolveBinary binary).

Definition execCmd (cmd args : string) : Go W (string * option error) :=
  issue (CallExecCmd cmd args) (ExecCmd cmd args).

Definition execShellCmd (cmd : string) : Go W (string * option error) :=
  issue (CallExecShellCmd cmd) (ExecShellCmd cmd).

Definition execTimedCmd (cmd args : string) : Go W (string * Z * option error) :=
  fun st =>
    let '((out, ms, err), w') := ExecTimedCmd cmd args (st_world st) in
    (Returned (out, ms, err),
     mkSt w' (st_trace st ++ [mkEvent (CallExecTimedCmd cmd args) out err])%list (st_logs st)).

Definition combinedOutput (path : string) (args : list string)
  : Go W (string * option error) :=
  issue (CallCombinedOutput path args) (CombinedOutput path args).

Definition logLine (lvl : Level) (msg : string) : Go W unit :=
  fun st => (Returned tt, mkSt (st_world st) (st_trace st) (st_logs st ++ [(lvl, msg)])%list).

End Primitives.

(** ** Package driver: the container handle *)

(** Modelled from the spec: the declaration of the interface [Container]
    (driver.go) is not among the sources; the spec's container handle carries
    a name, an image, a command override, a detached flag and a trace flag.
    The interface is modelled by the four accessors that both container
    types of the package implement; [Command] is a method of
    [DockerContainer] only. *)
Class Container (C : Type) : Type := {
  Name : C -> string;
  Detached : C -> bool;
  Trace : C -> bool;
  Image : C -> string
}.

(** *** docker.go

    The method [Type] of the two drivers returns a constant of the driver
    enumeration of driver.go, which is not among the sources; it has no
    effect and is left out. *)

Module Docker.

Definition defaultDockerBinary : string := "docker".

Record DockerDriver : Type := mkDockerDriver {
  dockerBinary : string;
  dockerInfo : string
}.

Record DockerContainer : Type := mkDockerContainer {
  name : string;
  imageName : string;
  cmdOverride : string;
  detached : bool;
  trace : bool
}.

Definition newDockerContainer (name image cmd : string) (detached trace : bool)
  : DockerContainer :=
  {| name := name; imageName := image; cmdOverride := cmd;
     detached := detached; trace := trace |}.

#[global] Instance DockerContainer_Container : Container DockerContainer := {
  Name c := name c;
  Detached c := detached c;
  Trace c := trace c;
  Image c := imageName c
}.

(** [DockerContainer.Command] *)
Definition Command (c : DockerContainer) : string := cmdOverride c.

Definition Path (d : DockerDriver) : string := dockerBinary d.

(** One turn of the loop over the lines of [docker version]; [None] is the
    run-time panic of [parts[1]] on a line without a colon. *)
Definition versionLine (acc : string * string * string) (line : string)
  : option (string * string * string) :=
  let '(clientVer, clientAPI, serverVer) := acc in
  let parts := Split line ":"%char in
  let key := TrimSpace (nth 0 parts EmptyString) in
  if key =? "Version" then
    match nth_error parts 1 with
    | None => None
    | Some p1 =>
        if clientVer =? EmptyString
        then Some (TrimSpace p1, clientAPI, serverVer)
        else Some (clientVer, clientAPI, TrimSpace p1)
    end
  else if key =? "API version" then
    match nth_error parts 1 with
    | None => None
    | Some p1 =>
        if clientAPI =? EmptyString
        then Some (clientVer ++ "|API:" ++ TrimSpace p1, p1, serverVer)
        else Some (clientVer, clientAPI, serverVer ++ "|API:" ++ TrimSpace p1)
    end
  else Some acc.

(** One turn of the loop over the lines of [docker info]. *)
Definition infoLine (serverVer : string) (line : string) : option string :=
  let parts := Split line ":"%char in
  let key := TrimSpace (nth 0 parts EmptyString) in
  let field (label : string) :=
    match nth_error parts 1 with
    | None => None
    | Some p1 => Some (serverVer ++ label ++ TrimSpace p1)
    end in
  if key =? "Kernel Version" then field "|Kernel:"
  else if key =? "Storage Driver" then field "|Storage:"
  else if key =? "Backing Filesystem" then field "|BackingFS:"
  else Some serverVer.

Fixpoint scanLoop {A : Type} (body : A -> string -> option A)
    (lines : list string) (acc : A) : option A :=
  match lines with
  | [] => Some acc
  | line :: rest =>
      match body acc line with
      | None => None
      | Some acc' => scanLoop body rest acc'
      end
  end.

Definition parseDaemonInfo (version info : string) : option string :=
  match scanLoop versionLine (ScanLines version)
          (EmptyString, EmptyString, EmptyString) with
  | None => None
  | Some (clientVer, _, serverVer) =>
      match scanLoop infoLine (ScanLines info) serverVer with
      | None => None
      | Some serverVer =>
          Some ("[CLIENT:" ++ clientVer ++ "][SERVER:" ++ serverVer ++ "]")
      end
  end.

Section WithUtils.
Context {W : Type} `{Utils W}.

(** [DockerDriver.Close] *)
Definition Close (d : DockerDriver) : Go W (option error) := ret None.

(** [DockerDriver.Info]; the driver is passed back because the call
    may fill its [dockerInfo] field.  The error of the [version] command
    is overwritten by that of the [info] command before it is tested. *)
Definition Info (d : DockerDriver)
  : Go W ((string * option error) * DockerDriver) :=
  if negb (dockerInfo d =? EmptyString) then ret ((dockerInfo d, None), d)
  else
    let infoStart := "docker driver (binary: " ++ dockerBinary d ++ ")" ++ nl in
    '(version, _) <- execCmd (dockerBinary d) "version" ;;
    '(info, err) <- execCmd (dockerBinary d) "info" ;;
    match err with
    | Some e =>
        ret ((EmptyString,
              Some (errorString
                      ("Error trying to retrieve docker daemon info: " ++ Error e))),
             d)
    | None =>
        match parseDaemonInfo version info with
        | None => panic "runtime error: index out of range"
        | Some parsed =>
            let d' := {| dockerBinary := dockerBinary d;
                         dockerInfo := infoStart ++ parsed |} in
            ret ((dockerInfo d', None), d')
        end
    end.

(** [NewDockerDriver]; the two results of the [Info] call are dropped. *)
Definition NewDockerDriver (binaryPath : string)
  : Go W (DockerDriver * option error) :=
  let binaryPath :=
    if binaryPath =? EmptyString then defaultDockerBinary else binaryPath in
  '(resolvedBinPath, err) <- resolveBinary binaryPath ;;
  match err with
  | Some e => ret ({| dockerBinary := EmptyString; dockerInfo := EmptyString |},
                   Some e)
  | None =>
      let driver := {| dockerBinary := resolvedBinPath;
                       dockerInfo := EmptyString |} in
      '(_, driver) <- Info driver ;;
      ret (driver, None)
  end.

(** [DockerDriver.Create] *)
Definition Create (d : DockerDriver) (name image cmdOverride : string)
    (detached trace : bool) : Go W (DockerContainer * option error) :=
  ret (newDockerContainer name image cmdOverride detached trace, None).

(** The string constants of [Clean]. *)
Definition marker : string := "requires at least 1 argument".
Definition stopCmd : string := "docker stop `docker ps -qf name=bb-ctr-`".
Definition rmCmd : string := "docker rm -f `docker ps -aqf name=bb-ctr-`".
Definition stopNote : string :=
  "Docker: Stopping any running containers created during bucketbench runs".
Definition rmNote : string :=
  "Docker: Removing exited containers from bucketbench runs".
Definition stopFailed : string :=
  "Docker: Failed to stop running bb-ctr-* containers: ".
Definition rmFailed : string :=
  "Docker: Failed to remove exited bb-ctr-* containers: ".

(** The test both halves of [Clean] make on a shell command's answer:
    warn when it failed and its output is not the complaint that there
    was nothing to act on. *)
Definition warnUnlessNothing (failed out : string) (err : option error)
  : Go W unit :=
  match err with
  | Some e =>
      if negb (Contains out marker)
      then logLine WarnLevel (failed ++ Error e ++ " (output: " ++ out ++ ")")
      else ret tt
  | None => ret tt
  end.

(** [DockerDriver.Clean] *)
Definition Clean (d : DockerDriver) : Go W (option error) :=
  logLine InfoLevel stopNote ;;
  '(out, err) <- execShellCmd stopCmd ;;
  warnUnlessNothing stopFailed out err ;;
  logLine InfoLevel rmNote ;;
  '(out, err) <- execShellCmd rmCmd ;;
  warnUnlessNothing rmFailed out err ;;
  ret None.

(** [DockerDriver.Run]: [fmt.Sprintf] with three [%s] verbs. *)
Definition runArgs {C : Type} `{Container C} (ctr : C) : string :=
  let detached := if Detached ctr then "-d" else EmptyString in
  "run " ++ detached ++ " --name " ++ Name ctr ++ " " ++ Image ctr.

Definition Run {C : Type} `{Container C} (d : DockerDriver) (ctr : C)
  : Go W (string * Z * option error) :=
  execTimedCmd (dockerBinary d) (runArgs ctr).

Definition Stop {C : Type} `{Container C} (d : DockerDriver) (ctr : C)
  : Go W (string * Z * option error) :=
  execTimedCmd (dockerBinary d) ("kill " ++ Name ctr).

Definition Remove {C : Type} `{Container C} (d : DockerDriver) (ctr : C)
  : Go W (string * Z * option error) :=
  execTimedCmd (dockerBinary d) ("rm " ++ Name ctr).

Definition Pause {C : Type} `{Container C} (d : DockerDriver) (ctr : C)
  : Go W (string * Z * option error) :=
  execTimedCmd (dockerBinary d) ("pause " ++ Name ctr).

Definition Unpause {C : Type} `{Container C} (d : DockerDriver) (ctr : C)
  : Go W (string * Z * option error) :=
  execTimedCmd (dockerBinary d) ("unpause " ++ Name ctr).

End WithUtils.
End Docker.

(** *** garden.go *)

Module Garden.

Record GardenDriver : Type := mkGardenDriver {
  gaolPath : string
}.

Record gardenContainer : Type := mkGardenContainer {
  name : string;
  detached : bool
}.

#[global] Instance gardenContainer_Container : Container gardenContainer := {
  Name c := name c;
  Detached c := detached c;
  Trace c := false;
  Image c := EmptyString
}.

Section WithUtils.
Context {W : Type} `{Utils W}.

Definition NewGardenDriver (gaolPath : string)
  : Go W (GardenDriver * option error) :=
  ret ({| gaolPath := gaolPath |}, None).

Definition Info (g : GardenDriver) : Go W (string * option error) :=
  ret ("Info for Garden isn't implemented yet", None).

Definition runGaol (g : GardenDriver) (gaolArgs : list string)
  : Go W (string * option error) :=
  '(out, err) <- combinedOutput (gaolPath g) gaolArgs ;;
  match err with
  | Some e =>
      ret (EmptyString,
           Some (errorString
                   ("error running " ++ gaolPath g ++ " '"
                    ++ Join gaolArgs " " ++ "': " ++ Error e ++ nl
                    ++ "gaol CLI output: " ++ out)))
  | None => ret (out, None)
  end.

(** [Create] takes no command override; on failure the handle is nil. *)
Definition Create (g : GardenDriver) (name image : string)
    (detached trace : bool) : Go W (option gardenContainer * option error) :=
  '(_, err) <- runGaol g ["create"; "-n"; name] ;;
  match err with
  | Some e => ret (None, Some e)
  | None => ret (Some {| name := name; detached := detached |}, None)
  end.

(** The loop of [Clean] over the lines of [gaol list]. *)
Fixpoint destroyEach (g : GardenDriver) (containers : list string)
  : Go W (option error) :=
  match containers with
  | [] => ret None
  | container :: rest =>
      if container =? EmptyString then destroyEach g rest
      else
        '(_, err) <- runGaol g ["destroy"; container] ;;
        match err with
        | Some e => ret (Some e)
        | None => destroyEach g rest
        end
  end.

Definition Clean (g : GardenDriver) : Go W (option error) :=
  '(containers, err) <- runGaol g ["list"] ;;
  match err with
  | Some e => ret (Some e)
  | None => destroyEach g (Split containers (ascii_of_nat 10))
  end.

Definition Run {C : Type} `{Container C} (g : GardenDriver) (ctr : C)
  : Go W (string * Z * option error) :=
  let gaolArgs := "run " ++ Name ctr in
  let gaolArgs := if negb (Detached ctr) then gaolArgs ++ " -a" else gaolArgs in
  let gaolArgs := gaolArgs ++ " -c whoami" in
  execTimedCmd (gaolPath g) gaolArgs.

Definition Stop {C : Type} `{Container C} (g : GardenDriver) (ctr : C)
  : Go W (string * Z * option error) :=
  ret (EmptyString, 0%Z, None).

Definition Remove {C : Type} `{Container C} (g : GardenDriver) (ctr : C)
  : Go W (string * Z * option error) :=
  execTimedCmd (gaolPath g) ("destroy " ++ Name ctr).

Definition Pause {C : Type} `{Container C} (g : GardenDriver) (ctr : C)
  : Go W (string * Z * option error) :=
  ret (EmptyString, 0%Z, None).

Definition Unpause {C : Type} `{Container C} (g : GardenDriver) (ctr : C)
  : Go W (string * Z * option error) :=
  ret (EmptyString, 0%Z, None).

End WithUtils.
End Garden.

(** ** Package benches: states, types and the constructor *)

Module Benches.

(** [type State int] and its constants. *)
Definition State : Type := Z.
Definition Created : State := 0%Z.
Definition Running : State := 1%Z.
Definition Completed : State := 2%Z.

(** [type Type int] and its constants. *)
Definition Type_ : Type := Z.
Definition Limit : Type_ := 0%Z.
Definition Custom : Type_ := 1%Z.

(** Modelled from the spec: the declarations of [LimitBench] and
    [CustomBench] are not among the sources.  [New] sets their [state]
    field and nothing else, so the two structs are modelled by that field
    (the spec's Benchmark State, one of Created, Running, Completed); every
    other field has Go's zero value after [New]. *)
Record LimitBench : Type := mkLimitBench { lb_state : State }.
Record CustomBench : Type := mkCustomBench { cb_state : State }.

(** The values of interface type [Bench] that [New] builds. *)
Inductive Bench : Type :=
| ofLimitBench (b : LimitBench)
| ofCustomBench (b : CustomBench).

Definition state (b : Bench) : State :=
  match b with
  | ofLimitBench b => lb_state b
  | ofCustomBench b => cb_state b
  end.

(** [New]; a nil [Bench] is [None]. *)
Definition New (btype : Type_) : option Bench * option error :=
  if (btype =? Limit)%Z then
    (Some (ofLimitBench {| lb_state := Created |}), None)
  else if (btype =? Custom)%Z then
    (Some (ofCustomBench {| cb_state := Created |}), None)
  else
    (None, Some (errorString ("No such benchmark type: " ++ FormatInt btype))).

End Benches.

(** ** Two simulated engines, for concrete runs of the drivers *)

(** A Garden server behind the [gaol] client: it keeps the handles of the
    live containers, [list] prints one per line, [create -n h] adds a handle
    and [destroy h] removes one; nothing works while the server is down. *)
Module GaolSim.

Record World : Type := mkWorld {
  up : bool;
  live : list string
}.

Definition exitStatus1 : option error := Some (errorString "exit status 1").

Definition listing (handles : list string) : string :=
  fold_right (fun h acc => h ++ nl ++ acc) EmptyString handles.

Fixpoint removeHandle (h : string) (handles : list string) : list string :=
  match handles with
  | [] => []
  | h' :: rest => if h' =? h then rest else h' :: removeHandle h rest
  end.

Definition gaol (args : list string) (w : World)
  : (string * option error) * World :=
  if negb (up w) then ("error: connection refused", exitStatus1, w)
  else
    match args with
    | [cmd] =>
        if cmd =? "list" then (listing (live w), None, w)
        else ("error: unknown command", exitStatus1, w)
    | [cmd; h] =>
        if (cmd =? "destroy") && existsb (String.eqb h) (live w)
        then (EmptyString, None, {| up := true; live := removeHandle h (live w) |})
        else ("error: unknown handle", exitStatus1, w)
    | [cmd; flag; h] =>
        if (cmd =? "create") && (flag =? "-n") && negb (existsb (String.eqb h) (live w))
        then (h ++ nl, None, {| up := true; live := (live w ++ [h])%list |})
        else ("error: handle already exists", exitStatus1, w)
    | _ => ("error: unknown command", exitStatus1, w)
    end.

#[global] Instance utils : Utils World := {
  ResolveBinary binary w := (binary, None, w);
  ExecCmd cmd args w := (EmptyString, exitStatus1, w);
  ExecShellCmd cmd w := (EmptyString, exitStatus1, w);
  ExecTimedCmd cmd args w := (EmptyString, 0%Z, exitStatus1, w);
  CombinedOutput path args w := gaol args w
}.

Definition start (w : World) : St World := mkSt w [] [].

(** A handle the server can print on a line of its own: not empty and
    free of line feeds. *)
Fixpoint oneLine (h : string) : bool :=
  match h with
  | EmptyString => true
  | String c rest => negb (Ascii.eqb c (ascii_of_nat 10)) && oneLine rest
  end.

Definition plainHandle (h : string) : bool :=
  negb (h =? EmptyString) && oneLine h.

End GaolSim.

(** A host with the docker client installed, whose daemon is up or down.
    With the daemon up there is no container of the tool, so both shell
    commands of the sweep fail for want of an argument. *)
Module DockerSim.

Record World : Type := mkWorld { daemonUp : bool }.

Definition exitStatus1 : option error := Some (errorString "exit status 1").

Definition versionText : string :=
  "Client:" ++ nl ++ " Version:      1.13.1" ++ nl ++ " API version:  1.26" ++ nl
  ++ "Server:" ++ nl ++ " Version:      1.13.1" ++ nl ++ " API version:  1.26" ++ nl.

Definition infoText : string :=
  "Containers: 0" ++ nl ++ "Storage Driver: overlay2" ++ nl
  ++ " Backing Filesystem: extfs" ++ nl ++ "Kernel Version: 4.4.0" ++ nl.

Definition unreachable : string :=
  "Cannot connect to the Docker daemon. Is the docker daemon running on this host?".

#[global] Instance utils : Utils World := {
  ResolveBinary binary w := ("/usr/bin/" ++ binary, None, w);
  ExecCmd cmd args w :=
    if daemonUp w then
      if args =? "version" then (versionText, None, w)
      else if args =? "info" then (infoText, None, w)
      else (EmptyString, exitStatus1, w)
    else (unreachable, exitStatus1, w);
  ExecShellCmd cmd w :=
    if daemonUp w
    then ("docker: this command requires at least 1 argument.", exitStatus1, w)
    else (unreachable, exitStatus1, w);
  ExecTimedCmd cmd args w :=
    if daemonUp w then (EmptyString, 10%Z, None, w)
    else (unreachable, 1%Z, exitStatus1, w);
  CombinedOutput path args w := (EmptyString, exitStatus1, w)
}.

Definition start (up : bool) : St World := mkSt {| daemonUp := up |} [] [].

End DockerSim.

(** ** Vocabulary of the statements *)

Definition failed (ev : Event) : bool :=
  match ev_err ev with Some _ => true | None => false end.

(** A failed shell command of the Docker sweep whose output is not the
    complaint that there was nothing to stop or remove. *)
Definition dockerFault (ev : Event) : bool :=
  failed ev && negb (Contains (ev_out ev) Docker.marker).

(** The warning the Docker sweep logs for an event, if any. *)
Definition warning (prefix : string) (ev : Event) : list (Level * string) :=
  match ev_err ev with
  | Some e =>
      if Contains (ev_out ev) Docker.marker then []
      else [(WarnLevel, prefix ++ Error e ++ " (output: " ++ ev_out ev ++ ")")]
  | None => []
  end.

(** The events a call added to the trace. *)
Definition added {W : Type} (st st' : St W) : list Event :=
  skipn (length (st_trace st)) (st_trace st').

(** A call surfaces faults: it returns an error exactly when one of the
    commands it issued is a fault. *)
Definition surfacesFaults {W : Type} (fault : Event -> bool)
    (m : Go W (option error)) (st : St W) : Prop :=
  forall r st', m st = (Returned r, st') ->
    (r <> None <-> existsb fault (added st st') = true).

(** A call stays inside the process: it returns and leaves the world, the
    trace and the log as they were. *)
Definition inMemoryOnly {W A : Type} (m : Go W A) (st : St W) : Prop :=
  exists a, m st = (Returned a, st).

(** The second of two calls in a row returns no error. *)
Definition secondCallSucceeds {W : Type} (m : Go W (option error)) (st : St W)
  : Prop :=
  forall r1 st1 r2 st2, m st = (r1, st1) -> m st1 = (r2, st2) -> r2 = Returned None.

(** The name filter of the tool's containers. *)
Definition toolPrefix : string := "bb-ctr-".

(** [gaol destroy] for every line of a listing that is not empty. *)
Definition destroyCalls (path : string) (lines : list string) : list Call :=
  map (fun c => CallCombinedOutput path ["destroy"; c])
      (filter (fun c => negb (c =? EmptyString)) lines).

Definition isBlankListing (out : string) : bool :=
  forallb (fun c => c =? EmptyString) (Split out (ascii_of_nat 10)).

(** *** Vocabulary of the statements about the parser and the sweeps *)






Definition clientServer (clientVer serverVer : string) : string :=
  "[CLIENT:" ++ clientVer ++ "][SERVER:" ++ serverVer ++ "]".

Definition succeeded (ev : Event) : bool := negb (failed ev).

(** The one timed command a lifecycle operation of the Docker driver
    issues. *)
Definition timedCall {W : Type} `{Utils W} (cmd args : string) (st : St W)
  : Outcome (string * Z * option error) * St W :=
  let '((out, ms, err), w') := ExecTimedCmd cmd args (st_world st) in
  (Returned (out, ms, err),
   mkSt w' (st_trace st ++ [mkEvent (CallExecTimedCmd cmd args) out err])%list
     (st_logs st)).













(** ** General facts *)

Lemma added_app {W : Type} (st st' : St W) (evs : list Event) :
  st_trace st' = (st_trace st ++ evs)%list -> added st st' = evs.
Proof.
  intros E. unfold added. rewrite E.
  rewrite skipn_app, skipn_all, Nat.sub_diag. reflexivity.
Qed.

Lemma option_not_None {A : Type} (o : option A) :
  o <> None <-> exists a, o = Some a.
Proof.
  destruct o as [a|]; split; intros Hn.
  - now exists a.
  - discriminate.
  - now elim Hn.
  - destruct Hn as [a Ha]. discriminate.
Qed.

(** The prefix of the banner of [Info] keeps the cached string from being
    empty. *)
Lemma banner_not_empty (binary rest : string) :
  (("docker driver (binary: " ++ binary ++ ")" ++ nl) ++ rest =? EmptyString) = false.
Proof. reflexivity. Qed.

(** ** The Garden sweep *)

Section GardenFacts.
Context {W : Type} `{Utils W}.
Import Garden.

(** [runGaol] issues one command, and its error is nil exactly when the
    command's is. *)
Lemma runGaol_run (g : GardenDriver) (args : list string) (st : St W) :
  exists r ev st',
    runGaol g args st = (Returned r, st')
    /\ st_trace st' = (st_trace st ++ [ev])%list
    /\ st_logs st' = st_logs st
    /\ ev_call ev = CallCombinedOutput (gaolPath g) args
    /\ CombinedOutput (gaolPath g) args (st_world st)
       = (ev_out ev, ev_err ev, st_world st')
    /\ (snd r = None <-> failed ev = false)
    /\ (failed ev = false -> fst r = ev_out ev).
Proof.
  unfold runGaol, bind, combinedOutput, issue, failed.
  destruct (CombinedOutput (gaolPath g) args (st_world st)) as [[out err] w'] eqn:E.
  destruct err as [e|]; cbn.
  - eexists (_, _), (mkEvent _ out (Some e)), _; cbn.
    repeat split; try reflexivity; try discriminate.
  - eexists (_, _), (mkEvent _ out None), _; cbn.
    repeat split; reflexivity.
Qed.

Lemma runGaol_ok (g : GardenDriver) (args : list string) (st : St W)
    (out : string) (w' : W) :
  CombinedOutput (gaolPath g) args (st_world st) = (out, None, w') ->
  runGaol g args st
  = (Returned (out, None),
     mkSt w'
       (st_trace st ++ [mkEvent (CallCombinedOutput (gaolPath g) args) out None])%list
       (st_logs st)).
Proof.
  intros E. unfold runGaol, bind, combinedOutput, issue. now rewrite E.
Qed.

Lemma destroyCalls_cons_empty (path : string) (lines : list string) :
  destroyCalls path (EmptyString :: lines) = destroyCalls path lines.
Proof. reflexivity. Qed.

Lemma destroyCalls_cons (path c : string) (lines : list string) :
  (c =? EmptyString) = false ->
  destroyCalls path (c :: lines)
  = CallCombinedOutput path ["destroy"; c] :: destroyCalls path lines.
Proof. intros E. unfold destroyCalls. cbn. now rewrite E. Qed.

(** The loop destroys the listed containers in order and stops at the
    first failure, which it returns. *)
Lemma destroyEach_run (g : GardenDriver) (lines : list string) :
  forall st : St W,
  exists r st' evs,
    destroyEach g lines st = (Returned r, st')
    /\ st_trace st' = (st_trace st ++ evs)%list
    /\ st_logs st' = st_logs st
    /\ (exists k, map ev_call evs = firstn k (destroyCalls (gaolPath g) lines))
    /\ (r = None -> map ev_call evs = destroyCalls (gaolPath g) lines)
    /\ (r <> None <-> existsb failed evs = true).
Proof.
  induction lines as [|c lines IH]; intros st.
  - exists None, st, []. cbn. rewrite app_nil_r.
    repeat split; try reflexivity; try (now exists 0%nat); try congruence.
  - cbn [destroyEach].
    destruct (c =? EmptyString) eqn:Ec.
    + apply String.eqb_eq in Ec. subst c.
      rewrite destroyCalls_cons_empty. apply IH.
    + rewrite (destroyCalls_cons _ _ _ Ec).
      destruct (runGaol_run g ["destroy"; c] st)
        as (r1 & ev & st1 & Hrun & Htr & Hlg & Hcall & _ & Herr & _).
      unfold bind at 1. rewrite Hrun.
      destruct r1 as [out1 err1]. cbn in Herr.
      destruct err1 as [e|].
      * exists (Some e), st1, [ev]. cbn.
        assert (Hf : failed ev = true).
        { destruct (failed ev); [reflexivity|].
          destruct Herr as [_ Hb]. now specialize (Hb eq_refl). }
        rewrite Hf, Hcall.
        repeat split; try assumption; try reflexivity; try discriminate.
        exists 1%nat. reflexivity.
      * destruct (IH st1) as (r & st' & evs & Hrun' & Htr' & Hlg' & [k Hk] & Hall & Hiff).
        exists r, st', (ev :: evs). cbn.
        assert (Hf : failed ev = false) by now apply Herr.
        rewrite Hf, Hcall. cbn.
        repeat split.
        -- exact Hrun'.
        -- rewrite Htr', Htr, <- app_assoc. reflexivity.
        -- congruence.
        -- exists (S k). cbn. now rewrite Hk.
        -- intros Hr. now rewrite (Hall Hr).
        -- apply Hiff.
        -- apply Hiff.
Qed.

(** [Clean] lists, then destroys; it returns an error exactly when one of
    its commands failed. *)
Lemma Garden_Clean_run (g : GardenDriver) (st : St W) :
  exists r st' ev evs,
    Clean g st = (Returned r, st')
    /\ st_trace st' = (st_trace st ++ ev :: evs)%list
    /\ st_logs st' = st_logs st
    /\ ev_call ev = CallCombinedOutput (gaolPath g) ["list"]
    /\ fst (CombinedOutput (gaolPath g) ["list"] (st_world st))
       = (ev_out ev, ev_err ev)
    /\ (exists k, map ev_call evs
                  = firstn k (destroyCalls (gaolPath g)
                                (Split (ev_out ev) (ascii_of_nat 10))))
    /\ (r = None ->
        failed ev = false
        /\ map ev_call evs
           = destroyCalls (gaolPath g) (Split (ev_out ev) (ascii_of_nat 10)))
    /\ (r <> None <-> existsb failed (ev :: evs) = true).
Proof.
  destruct (runGaol_run g ["list"] st)
    as (r1 & ev & st1 & Hrun & Htr & Hlg & Hcall & Hw & Herr & Hout).
  unfold Clean, bind at 1. rewrite Hrun.
  destruct r1 as [out1 err1]. cbn in Herr, Hout.
  destruct err1 as [e|].
  - exists (Some e), st1, ev, []. cbn.
    assert (Hf : failed ev = true).
    { destruct (failed ev); [reflexivity|].
      destruct Herr as [_ Hb]. now specialize (Hb eq_refl). }
    rewrite Hf, Hw. cbn.
    repeat split; try assumption; try reflexivity; try discriminate.
    exists 0%nat. reflexivity.
  - assert (Hf : failed ev = false) by now apply Herr.
    rewrite (Hout Hf).
    destruct (destroyEach_run g (Split (ev_out ev) (ascii_of_nat 10)) st1)
      as (r & st' & evs & Hrun' & Htr' & Hlg' & Hk & Hall & Hiff).
    exists r, st', ev, evs. cbn. rewrite Hf, Hw. cbn.
    repeat split.
    + exact Hrun'.
    + rewrite Htr', Htr, <- app_assoc. reflexivity.
    + congruence.
    + assumption.
    + exact Hk.
    + now apply Hall.
    + apply Hiff.
    + apply Hiff.
Qed.

(** [Create] issues [gaol create -n name] and answers by its outcome. *)
Lemma Garden_Create_run (g : GardenDriver) (name image : string)
    (detached trace : bool) (st : St W) :
  exists r ev st',
    Create g name image detached trace st = (Returned r, st')
    /\ st_trace st' = (st_trace st ++ [ev])%list
    /\ st_logs st' = st_logs st
    /\ ev_call ev = CallCombinedOutput (gaolPath g) ["create"; "-n"; name]
    /\ match ev_err ev with
       | None => r = (Some (mkGardenContainer name detached), None)
       | Some _ => exists e, r = (None, Some e)
       end.
Proof.
  destruct (runGaol_run g ["create"; "-n"; name] st)
    as (r1 & ev & st1 & Hrun & Htr & Hlg & Hcall & _ & Herr & _).
  unfold Create, bind at 1. rewrite Hrun.
  destruct r1 as [out1 err1]. cbn in Herr. unfold failed in Herr.
  destruct err1 as [e|].
  - exists (None, Some e), ev, st1. cbn.
    repeat split; try assumption.
    destruct (ev_err ev); [now exists e|].
    destruct Herr as [_ Hb]. now specialize (Hb eq_refl).
  - exists (Some (mkGardenContainer name detached), None), ev, st1. cbn.
    repeat split; try assumption.
    destruct (ev_err ev); [|reflexivity].
    destruct Herr as [Ha _]. now specialize (Ha eq_refl).
Qed.

(** A listing with nothing but empty lines asks for no destruction. *)
Lemma destroyCalls_blank (path out : string) :
  isBlankListing out = true ->
  destroyCalls path (Split out (ascii_of_nat 10)) = [].
Proof.
  unfold isBlankListing, destroyCalls.
  induction (Split out (ascii_of_nat 10)) as [|c lines IH]; [reflexivity|].
  cbn. destruct (c =? EmptyString); [exact IH|discriminate].
Qed.

End GardenFacts.

(** ** The Docker driver *)

Section DockerFacts.
Context {W : Type} `{Utils W}.
Import Docker.

(** [Clean] issues its two shell commands, logs, and returns nil. *)
Lemma Docker_Clean_run (d : DockerDriver) (st : St W) :
  exists ev1 ev2 st',
    Clean d st = (Returned None, st')
    /\ st_trace st' = (st_trace st ++ [ev1; ev2])%list
    /\ ev_call ev1 = CallExecShellCmd stopCmd
    /\ ev_call ev2 = CallExecShellCmd rmCmd
    /\ st_logs st'
       = (st_logs st ++ (InfoLevel, stopNote) :: warning stopFailed ev1
            ++ (InfoLevel, rmNote) :: warning rmFailed ev2)%list.
Proof.
  unfold Clean, bind, logLine, execShellCmd, issue. cbn.
  destruct (ExecShellCmd stopCmd (st_world st)) as [[out1 err1] w1].
  destruct (ExecShellCmd rmCmd w1) as [[out2 err2] w2] eqn:E2.
  exists (mkEvent (CallExecShellCmd stopCmd) out1 err1),
         (mkEvent (CallExecShellCmd rmCmd) out2 err2).
  unfold warnUnlessNothing, warning, logLine, ret. cbn.
  destruct err1 as [e1|]; [destruct (Contains out1 marker)|];
    cbn; rewrite E2;
    (destruct err2 as [e2|]; [destruct (Contains out2 marker)|]);
    cbn; eexists; repeat split; cbn;
    repeat rewrite <- app_assoc; reflexivity.
Qed.

(** A driver whose cache is filled answers from it. *)
Lemma Info_cached (d : DockerDriver) (st : St W) :
  (dockerInfo d =? EmptyString) = false ->
  Info d st = (Returned ((dockerInfo d, None), d), st).
Proof. intros E. unfold Info. rewrite E. reflexivity. Qed.

(** A driver whose cache is empty runs [docker version] and [docker info];
    only the second command's error decides. *)
Lemma Info_query (d : DockerDriver) (st : St W) :
  dockerInfo d = EmptyString ->
  let '(version, verr, w1) := ExecCmd (dockerBinary d) "version" (st_world st) in
  let '(info, ierr, w2) := ExecCmd (dockerBinary d) "info" w1 in
  let st2 :=
    mkSt w2
      (st_trace st
       ++ [mkEvent (CallExecCmd (dockerBinary d) "version") version verr;
           mkEvent (CallExecCmd (dockerBinary d) "info") info ierr])%list
      (st_logs st) in
  Info d st
  = match ierr with
    | Some e =>
        (Returned
           ((EmptyString,
             Some (errorString
                     ("Error trying to retrieve docker daemon info: " ++ Error e))),
            d), st2)
    | None =>
        match parseDaemonInfo version info with
        | None => (Panicked "runtime error: index out of range", st2)
        | Some parsed =>
            let s := ("docker driver (binary: " ++ dockerBinary d ++ ")" ++ nl)
                     ++ parsed in
            (Returned ((s, None), {| dockerBinary := dockerBinary d;
                                     dockerInfo := s |}), st2)
        end
    end.
Proof.
  intros E. unfold Info. rewrite E. cbn [String.eqb negb].
  unfold bind, execCmd, issue.
  destruct (ExecCmd (dockerBinary d) "version" (st_world st)) as [[version verr] w1].
  cbn [st_world st_trace st_logs].
  destruct (ExecCmd (dockerBinary d) "info" w1) as [[info ierr] w2].
  cbn [st_world st_trace st_logs].
  rewrite <- app_assoc. cbn [app].
  destruct ierr as [e|]; [reflexivity|].
  destruct (parseDaemonInfo version info); reflexivity.
Qed.

End DockerFacts.

(** ** The Garden sweep on the simulated server *)

Section GaolSimFacts.
Import GaolSim.

Lemma Split_line (h rest : string) :
  oneLine h = true ->
  Split (h ++ nl ++ rest) (ascii_of_nat 10) = h :: Split rest (ascii_of_nat 10).
Proof.
  induction h as [|c h IH]; intros Hh; [reflexivity|].
  cbn [oneLine] in Hh. apply andb_prop in Hh as [Hc Hh].
  cbn [append Split]. apply negb_true_iff in Hc. rewrite Hc.
  now rewrite (IH Hh).
Qed.

Lemma plainHandle_oneLine (h : string) : plainHandle h = true -> oneLine h = true.
Proof. unfold plainHandle. intros Hh. now apply andb_prop in Hh. Qed.

Lemma plainHandle_not_empty (h : string) :
  plainHandle h = true -> (h =? EmptyString) = false.
Proof.
  unfold plainHandle. intros Hh. apply andb_prop in Hh as [Hn _].
  now apply negb_true_iff in Hn.
Qed.

(** The listing of plain handles splits back into the handles, followed
    by the empty text after the last line feed. *)
Lemma Split_listing (handles : list string) :
  forallb plainHandle handles = true ->
  Split (listing handles) (ascii_of_nat 10) = (handles ++ [EmptyString])%list.
Proof.
  induction handles as [|h handles IH]; intros Hhs; [reflexivity|].
  cbn in Hhs. apply andb_prop in Hhs as [Hh Hhs].
  cbn [listing fold_right]. rewrite (Split_line _ _ (plainHandle_oneLine _ Hh)).
  fold (listing handles). now rewrite (IH Hhs).
Qed.

(** On a running server the loop destroys every listed handle. *)
Lemma GaolSim_destroyEach (g : Garden.GardenDriver) (handles : list string) :
  forallb plainHandle handles = true ->
  forall (tr : list Event) (lg : list (Level * string)),
  exists tr',
    Garden.destroyEach g (handles ++ [EmptyString])
      (mkSt (mkWorld true handles) tr lg)
    = (Returned None, mkSt (mkWorld true []) tr' lg).
Proof.
  induction handles as [|h handles IH]; intros Hhs tr lg.
  - now exists tr.
  - cbn in Hhs. apply andb_prop in Hhs as [Hh Hhs].
    cbn [app Garden.destroyEach]. rewrite (plainHandle_not_empty _ Hh).
    unfold bind at 1.
    rewrite (runGaol_ok g ["destroy"; h] _ EmptyString (mkWorld true handles)).
    + apply (IH Hhs).
    + cbn. now rewrite String.eqb_refl.
Qed.

(** On a running server with plain handles a sweep returns nil and leaves
    no container. *)
Lemma GaolSim_Clean (g : Garden.GardenDriver) (handles : list string)
    (tr : list Event) (lg : list (Level * string)) :
  forallb plainHandle handles = true ->
  exists tr',
    Garden.Clean g (mkSt (mkWorld true handles) tr lg)
    = (Returned None, mkSt (mkWorld true []) tr' lg).
Proof.
  intros Hhs. unfold Garden.Clean, bind at 1.
  rewrite (runGaol_ok g ["list"] _ (listing handles) (mkWorld true handles))
    by reflexivity.
  rewrite (Split_listing _ Hhs).
  apply (GaolSim_destroyEach g handles Hhs).
Qed.

End GaolSimFacts.

(** ** Cleaning the environment: which failures are reported *)

(** With the daemon down both shell commands of the Docker sweep fail for a
    reason other than an empty argument list, and [Clean] still returns nil:
    it does not return an error exactly when a fault occurs. *)
Lemma Docker_Clean_hides_fault :
  ~ surfacesFaults dockerFault
      (Docker.Clean (Docker.mkDockerDriver "docker" EmptyString))
      (DockerSim.start false).
Proof.
  intros Hs.
  pose (st' := snd (Docker.Clean (Docker.mkDockerDriver "docker" EmptyString)
                      (DockerSim.start false))).
  destruct (Hs None st' eq_refl) as [_ Hb].
  apply Hb; reflexivity.
Qed.

(** C1, as the drivers have it.  The Docker sweep never returns an error: it
    issues its two shell commands and returns nil, and a command that failed
    with anything but the nothing-to-act-on complaint leaves only a warning
    in the log.  The Garden sweep returns an error exactly when one of the
    gaol commands it issued failed, and an empty listing is a success with
    nothing destroyed. *)
Theorem Clean_error_reporting {W : Type} `{Utils W}
    (d : Docker.DockerDriver) (g : Garden.GardenDriver) (st : St W) :
  (exists ev1 ev2 st',
      Docker.Clean d st = (Returned None, st')
      /\ added st st' = [ev1; ev2]
      /\ st_logs st'
         = (st_logs st
            ++ (InfoLevel, Docker.stopNote) :: warning Docker.stopFailed ev1
            ++ (InfoLevel, Docker.rmNote) :: warning Docker.rmFailed ev2)%list)
  /\ (exists r st',
         Garden.Clean g st = (Returned r, st')
         /\ (r <> None <-> existsb failed (added st st') = true)
         /\ (fst (CombinedOutput (Garden.gaolPath g) ["list"] (st_world st))
             = (EmptyString, None) ->
             r = None /\ length (added st st') = 1%nat)).
Proof.
  split.
  - destruct (Docker_Clean_run d st) as (ev1 & ev2 & st' & Hrun & Htr & _ & _ & Hlg).
    exists ev1, ev2, st'. repeat split; try assumption.
    now apply added_app.
  - destruct (Garden_Clean_run g st)
      as (r & st' & ev & evs & Hrun & Htr & _ & _ & Hw & [k Hk] & _ & Hiff).
    exists r, st'. rewrite (added_app _ _ _ Htr).
    split; [exact Hrun|]. split; [exact Hiff|].
    intros Hlist. rewrite Hw in Hlist. injection Hlist as Hout Herr.
    rewrite Hout in Hk. cbn in Hk. rewrite firstn_nil in Hk.
    destruct evs; [|discriminate].
    split; [|reflexivity].
    destruct r as [e|]; [|reflexivity].
    assert (Hne : Some e <> None) by discriminate.
    apply Hiff in Hne. cbn in Hne. unfold failed in Hne.
    rewrite Herr in Hne. discriminate.
Qed.

Lemma Clean_error_reporting_witness :
  exists st',
    Garden.Clean (Garden.mkGardenDriver "gaol")
      (GaolSim.start (GaolSim.mkWorld true []))
    = (Returned None, st').
Proof.
  destruct (Clean_error_reporting (Docker.mkDockerDriver "docker" EmptyString)
              (Garden.mkGardenDriver "gaol")
              (GaolSim.start (GaolSim.mkWorld true [])))
    as [_ (r & st' & Hrun & _ & Hnone)].
  destruct (Hnone eq_refl) as [Hr _].
  exists st'. rewrite <- Hr. exact Hrun.
Defined.

(** ** Creating a handle *)

(** The Garden driver's [Create] runs [gaol create]: the call leaves an
    event in the trace, so it does not stay inside the process. *)
Lemma Garden_Create_issues_command :
  ~ inMemoryOnly
      (Garden.Create (Garden.mkGardenDriver "gaol") "bb-ctr-1" "alpine" true false)
      (GaolSim.start (GaolSim.mkWorld true [])).
Proof.
  intros [a Ha].
  apply (f_equal (fun p => st_trace (snd p))) in Ha.
  vm_compute in Ha. discriminate.
Qed.

(** C2, as the drivers have it.  The Docker driver's [Create] builds the
    handle in memory: it returns it with a nil error and the world, the trace
    and the log are as before.  The Garden driver's [Create] (which takes no
    command override) issues the one command [gaol create -n name]; it
    returns a handle and a nil error when that command succeeded, and a nil
    handle with an error when it failed. *)
Theorem Create_effects {W : Type} `{Utils W}
    (d : Docker.DockerDriver) (g : Garden.GardenDriver)
    (name image cmdOverride : string) (detached trace : bool) (st : St W) :
  Docker.Create d name image cmdOverride detached trace st
  = (Returned (Docker.newDockerContainer name image cmdOverride detached trace, None),
     st)
  /\ exists r ev st',
       Garden.Create g name image detached trace st = (Returned r, st')
       /\ added st st' = [ev]
       /\ st_logs st' = st_logs st
       /\ ev_call ev = CallCombinedOutput (Garden.gaolPath g) ["create"; "-n"; name]
       /\ match ev_err ev with
          | None => r = (Some (Garden.mkGardenContainer name detached), None)
          | Some _ => exists e, r = (None, Some e)
          end.
Proof.
  split; [reflexivity|].
  destruct (Garden_Create_run g name image detached trace st)
    as (r & ev & st' & Hrun & Htr & Hlg & Hcall & Hr).
  exists r, ev, st'. repeat split; try assumption.
  now apply added_app.
Qed.

(** ** Operations Garden does not support *)

(** C3.  The Garden driver's [Stop], [Pause] and [Unpause] return the empty
    output, zero elapsed milliseconds and a nil error for every handle, and
    leave the world, the trace and the log as they were. *)
Theorem Garden_unsupported_are_noops {W : Type} `{Utils W}
    {C : Type} `{Container C}
    (g : Garden.GardenDriver) (ctr : C) (st : St W) :
  Garden.Stop g ctr st = (Returned (EmptyString, 0%Z, None), st)
  /\ Garden.Pause g ctr st = (Returned (EmptyString, 0%Z, None), st)
  /\ Garden.Unpause g ctr st = (Returned (EmptyString, 0%Z, None), st).
Proof. repeat split. Qed.

(** ** The identity string *)

(** C4.  When [Info] of the Docker driver returns, then: if it returned a
    nil error, every later [Info] call on the driver, in any state, returns
    the same string and a nil error and issues nothing (the state is left as
    it was); if it returned an error, the cache was empty, the call ran
    [docker version] and [docker info], and the [docker info] command had
    failed.  The Garden driver's [Info] is a constant and issues nothing. *)
Theorem Info_memoized {W : Type} `{Utils W}
    (d d' : Docker.DockerDriver) (g : Garden.GardenDriver)
    (st st' : St W) (s : string) (err : option error) :
  Docker.Info d st = (Returned ((s, err), d'), st') ->
  match err with
  | None =>
      forall st2 : St W, Docker.Info d' st2 = (Returned ((s, None), d'), st2)
  | Some _ =>
      exists ev1 ev2,
        added st st' = [ev1; ev2]
        /\ ev_call ev1 = CallExecCmd (Docker.dockerBinary d) "version"
        /\ ev_call ev2 = CallExecCmd (Docker.dockerBinary d) "info"
        /\ failed ev2 = true
        /\ Docker.dockerInfo d' = EmptyString
  end
  /\ forall st2 : St W,
       Garden.Info g st2
       = (Returned ("Info for Garden isn't implemented yet", None), st2).
Proof.
  intros Hrun. split; [|reflexivity].
  destruct (Docker.dockerInfo d =? EmptyString) eqn:E.
  - apply String.eqb_eq in E.
    pose proof (Info_query d st E) as Hq.
    destruct (ExecCmd (Docker.dockerBinary d) "version" (st_world st))
      as [[version verr] w1].
    destruct (ExecCmd (Docker.dockerBinary d) "info" w1) as [[info ierr] w2].
    cbv zeta in Hq. rewrite Hq in Hrun. clear Hq.
    destruct ierr as [e|].
    + injection Hrun as Hs Herr Hd Hst. subst err d' st'.
      eexists _, _. split; [apply added_app; reflexivity|].
      repeat split. exact E.
    + destruct (Docker.parseDaemonInfo version info) as [parsed|]; [|discriminate].
      injection Hrun as Hs Herr Hd Hst. subst err d' s.
      intros st2. apply (Info_cached (W := W)). cbn [Docker.dockerInfo].
      apply banner_not_empty.
  - rewrite (Info_cached d st E) in Hrun.
    injection Hrun as Hs Herr Hd Hst. subst err d' s.
    intros st2. now apply Info_cached.
Qed.

Lemma Info_memoized_witness :
  exists s d',
    fst (Docker.Info (Docker.mkDockerDriver "/usr/bin/docker" EmptyString)
           (DockerSim.start true))
    = Returned ((s, None), d')
    /\ Docker.Info d' (DockerSim.start false)
       = (Returned ((s, None), d'), DockerSim.start false).
Proof.
  destruct (Docker.Info (Docker.mkDockerDriver "/usr/bin/docker" EmptyString)
              (DockerSim.start true)) as [out st'] eqn:Hrun.
  pose proof Hrun as Hval. vm_compute in Hval.
  injection Hval as Hout Hst. subst out.
  eexists _, _. split; [reflexivity|].
  apply (proj1 (Info_memoized _ _ (Garden.mkGardenDriver "gaol") _ _ _ None Hrun)).
Defined.

(** ** Constructing the Docker driver *)

(** With the client installed and the daemon down, the [docker info] command
    of the probe fails and [NewDockerDriver] returns a driver and a nil
    error all the same; the driver's cache is empty. *)
Lemma NewDockerDriver_daemon_down :
  exists d st',
    Docker.NewDockerDriver EmptyString (DockerSim.start false)
    = (Returned (d, None), st')
    /\ existsb failed (st_trace st') = true
    /\ Docker.dockerInfo d = EmptyString.
Proof. eexists _, _. split; [cbv; reflexivity|]. split; reflexivity. Qed.

(** C5, as the driver has it.  [NewDockerDriver] resolves the binary (the
    default [docker] for an empty path).  When resolution fails it returns
    that error with an empty driver.  When resolution succeeds it calls
    [Info] once on the new driver and drops both results: whatever [Info]
    returned, error or not, the constructor returns the driver as [Info]
    left it together with a nil error.  So the error of the constructor is
    the error of the resolution, and an unreachable daemon does not fail
    it. *)
Theorem NewDockerDriver_checks_binary_only {W : Type} `{Utils W}
    (binaryPath : string) (st : St W) :
  let path :=
    if binaryPath =? EmptyString then Docker.defaultDockerBinary else binaryPath in
  let '(resolved, rerr, w1) := ResolveBinary path (st_world st) in
  let st1 :=
    mkSt w1 (st_trace st ++ [mkEvent (CallResolveBinary path) resolved rerr])%list
      (st_logs st) in
  Docker.NewDockerDriver binaryPath st
  = match rerr with
    | Some e => (Returned (Docker.mkDockerDriver EmptyString EmptyString, Some e), st1)
    | None =>
        match Docker.Info (Docker.mkDockerDriver resolved EmptyString) st1 with
        | (Returned (_, d'), st2) => (Returned (d', None), st2)
        | (Panicked msg, st2) => (Panicked msg, st2)
        end
    end.
Proof.
  cbv zeta. unfold Docker.NewDockerDriver, bind at 1.
  unfold resolveBinary, issue.
  destruct (ResolveBinary _ (st_world st)) as [[resolved rerr] w1].
  destruct rerr as [e|]; [reflexivity|].
  unfold bind.
  destruct (Docker.Info _ _) as [[[r d']|msg] st2]; reflexivity.
Qed.

(** ** What a handle carries *)

(** A handle of the Garden driver reports an empty image and no tracing,
    whatever was passed to [Create]. *)
Lemma Garden_handle_drops_image_and_trace :
  exists c st',
    Garden.Create (Garden.mkGardenDriver "gaol") "bb-ctr-1" "alpine" true true
      (GaolSim.start (GaolSim.mkWorld true []))
    = (Returned (Some c, None), st')
    /\ Image c <> "alpine"
    /\ Trace c <> true.
Proof. eexists _, _. split; [cbv; reflexivity|]. split; discriminate. Qed.

(** C6, as the drivers have it.  The handle the Docker driver's [Create]
    returns gives back all five arguments through [Name], [Image],
    [Command], [Detached] and [Trace].  A handle the Garden driver's
    [Create] returns gives back the name and the detached flag; its [Image]
    is the empty string and its [Trace] is false, and it has no [Command]. *)
Theorem Create_handle_accessors {W : Type} `{Utils W}
    (d : Docker.DockerDriver) (g : Garden.GardenDriver)
    (name image cmdOverride : string) (detached trace : bool) (st : St W) :
  (exists c,
      Docker.Create d name image cmdOverride detached trace st
      = (Returned (c, None), st)
      /\ Name c = name /\ Image c = image /\ Docker.Command c = cmdOverride
      /\ Detached c = detached /\ Trace c = trace)
  /\ (exists r st',
         Garden.Create g name image detached trace st = (Returned r, st')
         /\ match fst r with
            | Some c =>
                Name c = name /\ Detached c = detached
                /\ Image c = EmptyString /\ Trace c = false
            | None => snd r <> None
            end).
Proof.
  split.
  - eexists. split; [reflexivity|]. repeat split.
  - destruct (Garden_Create_run g name image detached trace st)
      as (r & ev & st' & Hrun & _ & _ & _ & Hr).
    exists r, st'. split; [exact Hrun|].
    destruct (ev_err ev).
    + destruct Hr as [e0 ->]. discriminate.
    + subst r. repeat split.
Qed.

(** ** Cleaning the environment: what is removed *)

(** The Garden sweep destroys a container that does not carry the tool's
    prefix. *)
Lemma Garden_Clean_destroys_foreign :
  exists st',
    Garden.Clean (Garden.mkGardenDriver "gaol")
      (GaolSim.start (GaolSim.mkWorld true ["postgres"]))
    = (Returned None, st')
    /\ String.prefix toolPrefix "postgres" = false
    /\ GaolSim.live (st_world st') = []
    /\ map ev_call (st_trace st')
       = [CallCombinedOutput "gaol" ["list"];
          CallCombinedOutput "gaol" ["destroy"; "postgres"]].
Proof. eexists. split; [cbv; reflexivity|]. repeat split. Qed.

(** C7, as the drivers have it.  The Docker sweep issues exactly two shell
    commands, a stop and a forced removal, each applied to the containers
    docker's name filter selects for [bb-ctr-].  The Garden sweep issues
    [gaol list] and then [gaol destroy] for the lines of the listing that
    are not empty, in order and whatever their names, stopping after the
    first command that fails; when it returns nil it has issued a destroy
    for every such line. *)
Theorem Clean_commands {W : Type} `{Utils W}
    (d : Docker.DockerDriver) (g : Garden.GardenDriver) (st : St W) :
  (exists st',
      Docker.Clean d st = (Returned None, st')
      /\ map ev_call (added st st')
         = [CallExecShellCmd Docker.stopCmd; CallExecShellCmd Docker.rmCmd]
      /\ Contains Docker.stopCmd ("name=" ++ toolPrefix) = true
      /\ Contains Docker.rmCmd ("name=" ++ toolPrefix) = true)
  /\ (exists r st' ev evs,
         Garden.Clean g st = (Returned r, st')
         /\ added st st' = ev :: evs
         /\ ev_call ev = CallCombinedOutput (Garden.gaolPath g) ["list"]
         /\ (exists k,
                map ev_call evs
                = firstn k (destroyCalls (Garden.gaolPath g)
                              (Split (ev_out ev) (ascii_of_nat 10))))
         /\ (r = None ->
             map ev_call evs
             = destroyCalls (Garden.gaolPath g)
                 (Split (ev_out ev) (ascii_of_nat 10)))).
Proof.
  split.
  - destruct (Docker_Clean_run d st) as (ev1 & ev2 & st' & Hrun & Htr & Hc1 & Hc2 & _).
    exists st'. rewrite (added_app _ _ _ Htr). cbn [map]. rewrite Hc1, Hc2.
    repeat split. exact Hrun.
  - destruct (Garden_Clean_run g st)
      as (r & st' & ev & evs & Hrun & Htr & _ & Hcall & _ & Hk & Hall & _).
    exists r, st', ev, evs. rewrite (added_app _ _ _ Htr).
    repeat split; try assumption.
    intros Hr. now apply Hall.
Qed.

Lemma Clean_commands_witness :
  exists st',
    Garden.Clean (Garden.mkGardenDriver "gaol")
      (GaolSim.start (GaolSim.mkWorld true ["bb-ctr-1"; "redis"]))
    = (Returned None, st')
    /\ map ev_call (st_trace st')
       = [CallCombinedOutput "gaol" ["list"];
          CallCombinedOutput "gaol" ["destroy"; "bb-ctr-1"];
          CallCombinedOutput "gaol" ["destroy"; "redis"]].
Proof.
  destruct (Clean_commands (Docker.mkDockerDriver "docker" EmptyString)
              (Garden.mkGardenDriver "gaol")
              (GaolSim.start (GaolSim.mkWorld true ["bb-ctr-1"; "redis"])))
    as [_ (r & st' & ev & evs & Hrun & Hadd & Hcall & _ & Hall)].
  pose proof Hrun as Hval. vm_compute in Hval.
  injection Hval as Hr Hst. subst r.
  exists st'. split; [exact Hrun|].
  specialize (Hall eq_refl).
  unfold added in Hadd. cbn in Hadd. rewrite Hadd. cbn [map].
  rewrite Hcall, Hall. rewrite <- Hst in Hadd. cbn in Hadd.
  injection Hadd as Hev _. rewrite <- Hev. reflexivity.
Defined.

(** ** Cleaning twice *)

(** With the Garden server down, the second of two sweeps in a row returns
    an error, as the first did. *)
Lemma Garden_Clean_twice_server_down :
  ~ secondCallSucceeds (Garden.Clean (Garden.mkGardenDriver "gaol"))
      (GaolSim.start (GaolSim.mkWorld false ["bb-ctr-1"])).
Proof.
  intros Hs.
  pose (m := Garden.Clean (W := GaolSim.World) (Garden.mkGardenDriver "gaol")).
  pose (st0 := GaolSim.start (GaolSim.mkWorld false ["bb-ctr-1"])).
  specialize (Hs (fst (m st0)) (snd (m st0))
                 (fst (m (snd (m st0)))) (snd (m (snd (m st0))))
                 eq_refl eq_refl).
  vm_compute in Hs. discriminate.
Qed.

(** C8, as the drivers have it.  Two Docker sweeps in a row both return nil.
    Two Garden sweeps in a row both return; the second returns an error
    exactly when one of the gaol commands it issued failed, and it returns
    nil whenever the server then answers [gaol list] with success and no
    container.  On the simulated server, running and holding any containers
    with plain handles, the first sweep returns nil and leaves no container,
    and the second returns nil. *)
Theorem Clean_twice {W : Type} `{Utils W}
    (d : Docker.DockerDriver) (g : Garden.GardenDriver) (st : St W) :
  (exists st1 st2,
      Docker.Clean d st = (Returned None, st1)
      /\ Docker.Clean d st1 = (Returned None, st2))
  /\ (exists r1 st1 r2 st2,
         Garden.Clean g st = (Returned r1, st1)
         /\ Garden.Clean g st1 = (Returned r2, st2)
         /\ (r2 <> None <-> existsb failed (added st1 st2) = true)
         /\ (forall out w,
               CombinedOutput (Garden.gaolPath g) ["list"] (st_world st1)
               = (out, None, w) ->
               isBlankListing out = true ->
               r2 = None))
  /\ (forall handles tr lg,
         forallb GaolSim.plainHandle handles = true ->
         exists st1 st2,
           Garden.Clean g (mkSt (GaolSim.mkWorld true handles) tr lg)
           = (Returned None, st1)
           /\ GaolSim.live (st_world st1) = []
           /\ Garden.Clean g st1 = (Returned None, st2)).
Proof.
  split; [|split].
  - destruct (Docker_Clean_run d st) as (_ & _ & st1 & Hrun1 & _).
    destruct (Docker_Clean_run d st1) as (_ & _ & st2 & Hrun2 & _).
    now exists st1, st2.
  - destruct (Garden_Clean_run g st) as (r1 & st1 & _ & _ & Hrun1 & _).
    destruct (Garden_Clean_run g st1)
      as (r2 & st2 & ev & evs & Hrun2 & Htr & _ & _ & Hw & [k Hk] & _ & Hiff).
    exists r1, st1, r2, st2. rewrite (added_app _ _ _ Htr).
    split; [exact Hrun1|]. split; [exact Hrun2|]. split; [exact Hiff|].
    intros out w Hlist Hblank.
    rewrite Hlist in Hw. injection Hw as Hout Herr.
    rewrite <- Hout, (destroyCalls_blank _ _ Hblank), firstn_nil in Hk.
    destruct evs; [|discriminate].
    destruct r2 as [e|]; [|reflexivity].
    assert (Hne : Some e <> None) by discriminate.
    apply Hiff in Hne. cbn in Hne. unfold failed in Hne.
    rewrite <- Herr in Hne. discriminate.
  - intros handles tr lg Hhs.
    destruct (GaolSim_Clean g handles tr lg Hhs) as [tr1 Hrun1].
    destruct (GaolSim_Clean g [] tr1 lg eq_refl) as [tr2 Hrun2].
    eexists _, _. split; [exact Hrun1|]. split; [reflexivity|exact Hrun2].
Qed.

Lemma Clean_twice_witness :
  exists st1 st2,
    Garden.Clean (Garden.mkGardenDriver "gaol")
      (GaolSim.start (GaolSim.mkWorld true ["bb-ctr-1"; "bb-ctr-2"]))
    = (Returned None, st1)
    /\ Garden.Clean (Garden.mkGardenDriver "gaol") st1 = (Returned None, st2).
Proof.
  destruct (Clean_twice (Docker.mkDockerDriver "docker" EmptyString)
              (Garden.mkGardenDriver "gaol")
              (GaolSim.start (GaolSim.mkWorld true ["bb-ctr-1"; "bb-ctr-2"])))
    as (_ & (r1 & st1 & r2 & st2 & Hrun1 & Hrun2 & _ & Hblank) & _).
  pose proof Hrun1 as Hval. vm_compute in Hval.
  injection Hval as Hr Hst. subst r1 st1.
  eexists; exists st2. split; [exact Hrun1|].
  pose proof (Hblank _ _ eq_refl eq_refl) as Hr2. subst r2. exact Hrun2.
Defined.

(** ** Constructing a benchmark *)

(** C9.  [New] either builds a benchmark, for the type [Limit] or [Custom],
    whose state is [Created], one of the three distinct states [Created],
    [Running], [Completed]; or it is given another type and returns a nil
    benchmark with an error. *)
Theorem New_starts_Created (btype : Benches.Type_) :
  (exists b,
      Benches.New btype = (Some b, None)
      /\ (btype = Benches.Limit \/ btype = Benches.Custom)
      /\ Benches.state b = Benches.Created
      /\ In (Benches.state b)
           [Benches.Created; Benches.Running; Benches.Completed])
  \/ (exists e,
         Benches.New btype = (None, Some e)
         /\ btype <> Benches.Limit /\ btype <> Benches.Custom).
Proof.
  unfold Benches.New.
  destruct (Z.eqb_spec btype Benches.Limit) as [El|Nl].
  - left. eexists. split; [reflexivity|]. repeat split; [now left | now left].
  - destruct (Z.eqb_spec btype Benches.Custom) as [Ec|Nc].
    + left. eexists. split; [reflexivity|]. repeat split; [now right | now left].
    + right. eexists. repeat split; assumption.
Qed.

(** ** Running a Docker container *)

(** C10.  [DockerDriver.Run] issues one timed command to the docker binary,
    whose argument string is made of the detach flag, the handle's name and
    its image; the handle's command override, which [Command] returns, has
    no part in it: the call is the same as for the handle with an empty
    override. *)
Theorem Docker_Run_ignores_command {W : Type} `{Utils W}
    (d : Docker.DockerDriver) (name image cmdOverride : string)
    (detached trace : bool) (st : St W) :
  let ctr := Docker.newDockerContainer name image cmdOverride detached trace in
  let args :=
    "run " ++ (if detached then "-d" else EmptyString)
    ++ " --name " ++ name ++ " " ++ image in
  Docker.Command ctr = cmdOverride
  /\ (exists out ms err st',
         Docker.Run d ctr st = (Returned (out, ms, err), st')
         /\ added st st'
            = [mkEvent (CallExecTimedCmd (Docker.dockerBinary d) args) out err]
         /\ ExecTimedCmd (Docker.dockerBinary d) args (st_world st)
            = (out, ms, err, st_world st'))
  /\ Docker.Run d ctr st
     = Docker.Run d (Docker.newDockerContainer name image EmptyString detached trace) st.
Proof.
  cbv zeta. split; [reflexivity|]. split; [|reflexivity].
  unfold Docker.Run, Docker.runArgs, execTimedCmd. cbn.
  destruct (ExecTimedCmd _ _ (st_world st)) as [[[out ms] err] w'].
  eexists out, ms, err, _. split; [reflexivity|].
  split; [|reflexivity].
  apply added_app. reflexivity.
Qed.

(** ** Further properties of the drivers *)

(** *** Strings *)

Lemma append_nil_r (s : string) : s ++ EmptyString = s.
Proof. induction s as [|c s IH]; cbn; [reflexivity|now rewrite IH]. Qed.

Lemma append_assoc (s t u : string) : (s ++ t) ++ u = s ++ t ++ u.
Proof. induction s as [|c s IH]; cbn; [reflexivity|now rewrite IH]. Qed.

Lemma prefix_refl (s : string) : String.prefix s s = true.
Proof.
  induction s as [|c s IH]; [reflexivity|].
  cbn. destruct (ascii_dec c c) as [_|N]; [exact IH|now elim N].
Qed.

Lemma prefix_app (s t : string) : String.prefix s (s ++ t) = true.
Proof.
  induction s as [|c s IH]; [now destruct t|].
  cbn. destruct (ascii_dec c c) as [_|N]; [exact IH|now elim N].
Qed.

Lemma Contains_prefix (s sub : string) :
  String.prefix sub s = true -> Contains s sub = true.
Proof. intros Hp. destruct s; cbn [Contains]; now rewrite Hp. Qed.

Lemma Contains_app_l (s t sub : string) :
  Contains t sub = true -> Contains (s ++ t) sub = true.
Proof.
  intros Ht. induction s as [|c s IH]; [exact Ht|].
  cbn [append Contains]. rewrite IH. apply orb_true_r.
Qed.

(** A text contains each of its parts. *)
Lemma Contains_middle (s sub t : string) : Contains (s ++ sub ++ t) sub = true.
Proof. apply Contains_app_l, Contains_prefix, prefix_app. Qed.




(** *** The parser of the daemon's answers *)

Section ParserFacts.
Import Docker.







(** What a line of [docker info] adds does not depend on what was gathered
    before it. *)
Lemma infoLine_appends (serverVer line : string) :
  infoLine serverVer line
  = option_map (append serverVer) (infoLine EmptyString line).
Proof.
  unfold infoLine.
  destruct (nth_error (Split line ":"%char) 1) as [p1|];
    repeat match goal with
           | |- context [if ?b then _ else _] => destruct b
           end; cbn [option_map append]; try reflexivity;
    now rewrite append_nil_r.
Qed.

Lemma scanLoop_infoLine_appends (lines : list string) :
  forall serverVer,
    scanLoop infoLine lines serverVer
    = option_map (append serverVer) (scanLoop infoLine lines EmptyString).
Proof.
  induction lines as [|line lines IH]; intros serverVer; cbn [scanLoop].
  - cbn. now rewrite append_nil_r.
  - rewrite (infoLine_appends serverVer line).
    destruct (infoLine EmptyString line) as [t|]; cbn [option_map]; [|reflexivity].
    rewrite (IH (serverVer ++ t)), (IH t).
    destruct (scanLoop infoLine lines EmptyString) as [u|]; cbn [option_map];
      [|reflexivity].
    now rewrite append_assoc.
Qed.

End ParserFacts.




(** X3.  The two texts are read independently: the server part of the
    result is what the version text gave for the server followed by the
    fields of the info text, in the order of its lines, and the client part
    comes from the version text alone. *)
Theorem parseDaemonInfo_appends_info_fields (version info : string) :
  Docker.parseDaemonInfo version info
  = match Docker.scanLoop Docker.versionLine (ScanLines version)
            (EmptyString, EmptyString, EmptyString),
          Docker.scanLoop Docker.infoLine (ScanLines info) EmptyString with
    | Some (clientVer, _, serverVer), Some fields =>
        Some (clientServer clientVer (serverVer ++ fields))
    | _, _ => None
    end.
Proof.
  unfold Docker.parseDaemonInfo, clientServer.
  destruct (Docker.scanLoop Docker.versionLine (ScanLines version) _)
    as [[[clientVer clientAPI] serverVer]|]; [|reflexivity].
  rewrite (scanLoop_infoLine_appends (ScanLines info) serverVer).
  destruct (Docker.scanLoop Docker.infoLine (ScanLines info) EmptyString);
    reflexivity.
Qed.

(** *** The identity string and the constructor *)

(** X4.  With an empty cache [Info] runs [docker version] and then
    [docker info], whatever the first answers, and logs nothing.  The second
    command alone decides between error and success: [Info] returns an
    error, with an empty string and the driver unchanged, exactly when
    [docker info] failed.  When it succeeded, [Info] either panics in the
    parser or returns a nil error and a string that starts with the banner
    naming the binary, stored in the driver, whose binary is unchanged.  A
    failure of [docker version] is never reported. *)
Theorem Info_decided_by_info_command {W : Type} `{Utils W}
    (d : Docker.DockerDriver) (st : St W) :
  Docker.dockerInfo d = EmptyString ->
  exists ev1 ev2 o st',
    Docker.Info d st = (o, st')
    /\ added st st' = [ev1; ev2]
    /\ ev_call ev1 = CallExecCmd (Docker.dockerBinary d) "version"
    /\ ev_call ev2 = CallExecCmd (Docker.dockerBinary d) "info"
    /\ st_logs st' = st_logs st
    /\ match o with
       | Returned ((s, Some _), d') =>
           failed ev2 = true /\ s = EmptyString /\ d' = d
       | Returned ((s, None), d') =>
           failed ev2 = false
           /\ String.prefix
                ("docker driver (binary: " ++ Docker.dockerBinary d ++ ")" ++ nl) s
              = true
           /\ d' = Docker.mkDockerDriver (Docker.dockerBinary d) s
       | Panicked _ => failed ev2 = false
       end.
Proof.
  intros E. pose proof (Info_query d st E) as Hq.
  destruct (ExecCmd (Docker.dockerBinary d) "version" (st_world st))
    as [[version verr] w1].
  destruct (ExecCmd (Docker.dockerBinary d) "info" w1) as [[info ierr] w2].
  cbv zeta in Hq.
  exists (mkEvent (CallExecCmd (Docker.dockerBinary d) "version") version verr),
         (mkEvent (CallExecCmd (Docker.dockerBinary d) "info") info ierr).
  destruct ierr as [e|]; [|destruct (Docker.parseDaemonInfo version info)];
    eexists _, _; (split; [exact Hq|]); (split; [now apply added_app|]);
    repeat split.
  apply prefix_app.
Qed.

Lemma Info_decided_by_info_command_witness :
  exists s d' st',
    Docker.Info (Docker.mkDockerDriver "/usr/bin/docker" EmptyString)
      (DockerSim.start true)
    = (Returned ((s, None), d'), st')
    /\ Docker.dockerInfo d' = s.
Proof.
  destruct (Info_decided_by_info_command
              (Docker.mkDockerDriver "/usr/bin/docker" EmptyString)
              (DockerSim.start true) eq_refl)
    as (ev1 & ev2 & o & st' & Hrun & _ & _ & _ & _ & Ho).
  pose proof Hrun as Hval. vm_compute in Hval.
  injection Hval as Hout _. subst o.
  eexists _, _, st'. split; [exact Hrun|]. reflexivity.
Defined.

(** X5.  A failed [Info] is not remembered: when [Info] returns an error the
    string is empty and the driver is as it was, and the next [Info] call on
    it, in any state, again runs [docker version] and [docker info]. *)
Theorem Info_failure_not_cached {W : Type} `{Utils W}
    (d d' : Docker.DockerDriver) (st st' : St W) (s : string) (e : error) :
  Docker.Info d st = (Returned ((s, Some e), d'), st') ->
  s = EmptyString /\ d' = d
  /\ forall st2 : St W,
       exists o st3,
         Docker.Info d' st2 = (o, st3)
         /\ map ev_call (added st2 st3)
            = [CallExecCmd (Docker.dockerBinary d) "version";
               CallExecCmd (Docker.dockerBinary d) "info"].
Proof.
  intros Hrun.
  destruct (Docker.dockerInfo d =? EmptyString) eqn:E.
  - apply String.eqb_eq in E.
    assert (Hsd : s = EmptyString /\ d' = d).
    { pose proof (Info_query d st E) as Hq.
      destruct (ExecCmd (Docker.dockerBinary d) "version" (st_world st))
        as [[version verr] w1].
      destruct (ExecCmd (Docker.dockerBinary d) "info" w1) as [[info ierr] w2].
      cbv zeta in Hq. rewrite Hq in Hrun.
      destruct ierr as [e0|].
      - injection Hrun as Hs _ Hd _. now split.
      - destruct (Docker.parseDaemonInfo version info); discriminate. }
    destruct Hsd as [Hs Hd]. subst s d'. repeat split.
    intros st2. pose proof (Info_query d st2 E) as Hq.
    destruct (ExecCmd (Docker.dockerBinary d) "version" (st_world st2))
      as [[version verr] w1].
    destruct (ExecCmd (Docker.dockerBinary d) "info" w1) as [[info ierr] w2].
    cbv zeta in Hq.
    destruct ierr as [e0|]; [|destruct (Docker.parseDaemonInfo version info)];
      (eexists _, _; split; [exact Hq|]);
      (erewrite added_app; [|reflexivity]); reflexivity.
  - rewrite (Info_cached d st E) in Hrun. discriminate.
Qed.

Lemma Info_failure_not_cached_witness :
  exists o st3,
    Docker.Info (Docker.mkDockerDriver "/usr/bin/docker" EmptyString)
      (DockerSim.start true)
    = (o, st3)
    /\ map ev_call (added (DockerSim.start true) st3)
       = [CallExecCmd "/usr/bin/docker" "version";
          CallExecCmd "/usr/bin/docker" "info"].
Proof.
  destruct (Docker.Info (Docker.mkDockerDriver "/usr/bin/docker" EmptyString)
              (DockerSim.start false)) as [o1 st1] eqn:Hrun.
  pose proof Hrun as Hval. vm_compute in Hval.
  injection Hval as Ho _. subst o1.
  destruct (Info_failure_not_cached _ _ _ _ _ _ Hrun) as (_ & _ & Hnext).
  exact (Hnext (DockerSim.start true)).
Defined.

(** X6.  [NewDockerDriver] first resolves the binary, [docker] when the
    path is empty.  When resolution fails it returns that error with an
    empty driver and issues nothing else.  When resolution succeeds it runs
    [docker version] and [docker info] with the resolved binary and returns
    a driver whose [Path] is the resolved binary; the driver's cache is left
    empty exactly when [docker info] failed. *)
Theorem NewDockerDriver_resolves_then_probes {W : Type} `{Utils W}
    (binaryPath : string) (st : St W) :
  exists ev evs o st',
    Docker.NewDockerDriver binaryPath st = (o, st')
    /\ added st st' = ev :: evs
    /\ ev_call ev
       = CallResolveBinary (if binaryPath =? EmptyString then "docker" else binaryPath)
    /\ match o with
       | Returned (d, Some e) =>
           ev_err ev = Some e /\ evs = []
           /\ d = Docker.mkDockerDriver EmptyString EmptyString
       | Returned (d, None) =>
           ev_err ev = None
           /\ Docker.Path d = ev_out ev
           /\ exists ev1 ev2,
                evs = [ev1; ev2]
                /\ ev_call ev1 = CallExecCmd (ev_out ev) "version"
                /\ ev_call ev2 = CallExecCmd (ev_out ev) "info"
                /\ (Docker.dockerInfo d = EmptyString <-> failed ev2 = true)
       | Panicked _ => ev_err ev = None /\ length evs = 2%nat
       end.
Proof.
  unfold Docker.NewDockerDriver, bind at 1. unfold resolveBinary, issue.
  destruct (ResolveBinary _ (st_world st)) as [[resolved rerr] w1].
  set (path := if binaryPath =? EmptyString then Docker.defaultDockerBinary
               else binaryPath).
  exists (mkEvent (CallResolveBinary path) resolved rerr).
  destruct rerr as [e|].
  - eexists [], _, _. split; [reflexivity|]. split; [now apply added_app|].
    repeat split.
  - unfold bind.
    set (st1 := mkSt w1 _ (st_logs st)).
    pose proof (Info_query (Docker.mkDockerDriver resolved EmptyString) st1 eq_refl)
      as Hq.
    cbn [Docker.dockerBinary] in Hq.
    destruct (ExecCmd resolved "version" (st_world st1)) as [[version verr] w2].
    destruct (ExecCmd resolved "info" w2) as [[info ierr] w3].
    cbv zeta in Hq. rewrite Hq. clear Hq.
    destruct ierr as [e|]; [|destruct (Docker.parseDaemonInfo version info)];
      eexists [_; _], _, _;
      (split; [reflexivity|]);
      (split; [apply added_app; subst st1; cbn; now rewrite <- app_assoc|]);
      (split; [reflexivity|]); cbn.
    + repeat split. eexists _, _. repeat split.
    + repeat split. eexists _, _. repeat split; discriminate.
    + repeat split.
Qed.

(** X7.  [Clean] of the Docker driver does not look at the driver: its two
    shell commands call [docker] by name, not the driver's binary, so any
    two drivers sweep alike. *)
Theorem Docker_Clean_ignores_binary {W : Type} `{Utils W}
    (d1 d2 : Docker.DockerDriver) (st : St W) :
  Docker.Clean d1 st = Docker.Clean d2 st
  /\ exists st',
       Docker.Clean d1 st = (Returned None, st')
       /\ Forall (fun ev => exists cmd,
                    ev_call ev = CallExecShellCmd cmd
                    /\ String.prefix "docker " cmd = true)
            (added st st').
Proof.
  split; [reflexivity|].
  destruct (Docker_Clean_run d1 st) as (ev1 & ev2 & st' & Hrun & Htr & Hc1 & Hc2 & _).
  exists st'. split; [exact Hrun|].
  rewrite (added_app _ _ _ Htr).
  repeat constructor; eexists; (split; [eassumption|reflexivity]).
Qed.

(** X8.  [Stop], [Remove], [Pause] and [Unpause] of the Docker driver
    address the container by its name alone: for two handles with the same
    name, of whatever container types, each operation on the first is the
    one timed command [kill], [rm], [pause] or [unpause] followed by the
    name, sent to the driver's binary, whose output, elapsed time and error
    are returned as they come. *)
Theorem Docker_operations_use_name_only {W : Type} `{Utils W}
    {C1 : Type} `{Container C1} {C2 : Type} `{Container C2}
    (d : Docker.DockerDriver) (c1 : C1) (c2 : C2) (st : St W) :
  Name c1 = Name c2 ->
  Docker.Stop d c1 st = timedCall (Docker.dockerBinary d) ("kill " ++ Name c2) st
  /\ Docker.Remove d c1 st = timedCall (Docker.dockerBinary d) ("rm " ++ Name c2) st
  /\ Docker.Pause d c1 st = timedCall (Docker.dockerBinary d) ("pause " ++ Name c2) st
  /\ Docker.Unpause d c1 st
     = timedCall (Docker.dockerBinary d) ("unpause " ++ Name c2) st.
Proof.
  intros E.
  unfold Docker.Stop, Docker.Remove, Docker.Pause, Docker.Unpause, execTimedCmd,
    timedCall.
  rewrite E. repeat split.
Qed.

Lemma Docker_operations_use_name_only_witness :
  Docker.Stop (Docker.mkDockerDriver "docker" EmptyString)
    (Docker.newDockerContainer "bb-ctr-1" "alpine" "date" true false)
    (DockerSim.start true)
  = timedCall "docker" "kill bb-ctr-1" (DockerSim.start true).
Proof.
  refine (proj1 (Docker_operations_use_name_only
                   (Docker.mkDockerDriver "docker" EmptyString)
                   (Docker.newDockerContainer "bb-ctr-1" "alpine" "date" true false)
                   (Garden.mkGardenContainer "bb-ctr-1" false)
                   (DockerSim.start true) _)).
  reflexivity.
Defined.

(** *** The Garden driver *)

Section GardenMoreFacts.
Context {W : Type} `{Utils W}.
Import Garden.

(** The message [runGaol] builds for a failed command. *)
Lemma runGaol_failed (g : GardenDriver) (args : list string) (st : St W)
    (out : string) (e : error) (w' : W) :
  CombinedOutput (gaolPath g) args (st_world st) = (out, Some e, w') ->
  runGaol g args st
  = (Returned
       (EmptyString,
        Some (errorString
                ("error running " ++ gaolPath g ++ " '" ++ Join args " " ++ "': "
                 ++ Error e ++ nl ++ "gaol CLI output: " ++ out))),
     mkSt w'
       (st_trace st ++ [mkEvent (CallCombinedOutput (gaolPath g) args) out (Some e)])%list
       (st_logs st)).
Proof.
  intros E. unfold runGaol, bind, combinedOutput, issue. now rewrite E.
Qed.

Lemma gaol_message_quotes (path joined err out : string) :
  let msg := "error running " ++ path ++ " '" ++ joined ++ "': "
             ++ err ++ nl ++ "gaol CLI output: " ++ out in
  Contains msg path = true /\ Contains msg joined = true
  /\ Contains msg err = true /\ Contains msg out = true.
Proof.
  cbv zeta. repeat split.
  - apply Contains_middle.
  - do 2 apply Contains_app_l. apply Contains_middle.
  - do 4 apply Contains_app_l. apply Contains_middle.
  - do 8 apply Contains_app_l. apply Contains_prefix, prefix_refl.
Qed.

(** [runGaol] either succeeds and hands on the output, or fails with an
    error that quotes it. *)
Lemma runGaol_cases (g : GardenDriver) (args : list string) (st : St W) :
  exists ev st',
    st_trace st' = (st_trace st ++ [ev])%list
    /\ st_logs st' = st_logs st
    /\ ev_call ev = CallCombinedOutput (gaolPath g) args
    /\ ((failed ev = false
         /\ runGaol g args st = (Returned (ev_out ev, None), st'))
        \/ (failed ev = true
            /\ exists e,
                 runGaol g args st = (Returned (EmptyString, Some e), st')
                 /\ Contains (Error e) (ev_out ev) = true)).
Proof.
  destruct (CombinedOutput (gaolPath g) args (st_world st)) as [[out err] w'] eqn:E.
  destruct err as [e|].
  - rewrite (runGaol_failed g args st out e w' E).
    exists (mkEvent (CallCombinedOutput (gaolPath g) args) out (Some e)).
    eexists (mkSt w' _ (st_logs st)).
    split; [reflexivity|]. split; [reflexivity|]. split; [reflexivity|].
    right. split; [reflexivity|]. eexists. split; [reflexivity|].
    apply gaol_message_quotes.
  - rewrite (runGaol_ok g args st out w' E).
    exists (mkEvent (CallCombinedOutput (gaolPath g) args) out None).
    eexists (mkSt w' _ (st_logs st)).
    split; [reflexivity|]. split; [reflexivity|]. split; [reflexivity|].
    left. now split.
Qed.

(** The loop stops at the first command that fails: every command before it
    succeeded, nothing is issued after it, and the error returned quotes its
    output. *)
Lemma destroyEach_fail_fast (g : GardenDriver) (lines : list string) :
  forall st : St W,
  exists r st' evs,
    destroyEach g lines st = (Returned r, st')
    /\ st_trace st' = (st_trace st ++ evs)%list
    /\ match r with
       | None => forallb succeeded evs = true
       | Some e =>
           exists evs0 ev,
             evs = (evs0 ++ [ev])%list
             /\ forallb succeeded evs0 = true
             /\ failed ev = true
             /\ Contains (Error e) (ev_out ev) = true
       end.
Proof.
  induction lines as [|c lines IH]; intros st.
  - exists None, st, []. cbn. now rewrite app_nil_r.
  - cbn [destroyEach]. destruct (c =? EmptyString); [apply IH|].
    destruct (runGaol_cases g ["destroy"; c] st)
      as (ev & st1 & Htr & _ & _ & [[Hok Hrun]|[Hf (e & Hrun & Hq)]]);
      unfold bind at 1; rewrite Hrun.
    + destruct (IH st1) as (r & st' & evs & Hrun' & Htr' & Hr).
      exists r, st', (ev :: evs). split; [exact Hrun'|]. split.
      { rewrite Htr', Htr, <- app_assoc. reflexivity. }
      destruct r as [e|].
      * destruct Hr as (evs0 & ev' & Hevs & Hall & Hf & Hq).
        exists (ev :: evs0), ev'. rewrite Hevs. repeat split; try assumption.
        cbn. unfold succeeded at 1. now rewrite Hok.
      * cbn. unfold succeeded at 1. now rewrite Hok.
    + exists (Some e), st1, [ev]. split; [reflexivity|]. split; [exact Htr|].
      exists [], ev. now repeat split.
Qed.

End GardenMoreFacts.

(** X9.  The Garden sweep fails fast.  When [Clean] returns nil, every
    command it issued succeeded.  When it returns an error, exactly one
    command failed, the last it issued: the commands before succeeded,
    the containers listed after the failing one are not touched, and the
    error's text quotes the output of the failing command. *)
Theorem Garden_Clean_fails_fast {W : Type} `{Utils W}
    (g : Garden.GardenDriver) (st : St W) :
  exists r st',
    Garden.Clean g st = (Returned r, st')
    /\ match r with
       | None => forallb succeeded (added st st') = true
       | Some e =>
           exists evs0 ev,
             added st st' = (evs0 ++ [ev])%list
             /\ forallb succeeded evs0 = true
             /\ failed ev = true
             /\ Contains (Error e) (ev_out ev) = true
       end.
Proof.
  destruct (runGaol_cases g ["list"] st)
    as (ev & st1 & Htr & _ & _ & [[Hok Hrun]|[Hf (e & Hrun & Hq)]]);
    unfold Garden.Clean, bind at 1; rewrite Hrun.
  - destruct (destroyEach_fail_fast g (Split (ev_out ev) (ascii_of_nat 10)) st1)
      as (r & st' & evs & Hrun' & Htr' & Hr).
    exists r, st'. split; [exact Hrun'|].
    assert (Hadd : added st st' = ev :: evs).
    { apply added_app. rewrite Htr', Htr, <- app_assoc. reflexivity. }
    rewrite Hadd. destruct r as [e|].
    + destruct Hr as (evs0 & ev' & Hevs & Hall & Hf & Hq).
      exists (ev :: evs0), ev'. rewrite Hevs. repeat split; try assumption.
      cbn. unfold succeeded at 1. now rewrite Hok.
    + cbn. unfold succeeded at 1. now rewrite Hok.
  - exists (Some e), st1. split; [reflexivity|].
    exists [], ev. rewrite (added_app _ _ _ Htr). now repeat split.
Qed.

(** X10.  The Garden sweep never asks to destroy an empty handle: after the
    listing, every command it issues is [gaol destroy] of a line of the
    listing that is not empty; and it writes nothing to the log. *)
Theorem Garden_Clean_destroys_listed_lines {W : Type} `{Utils W}
    (g : Garden.GardenDriver) (st : St W) :
  exists r st' ev evs,
    Garden.Clean g st = (Returned r, st')
    /\ added st st' = ev :: evs
    /\ ev_call ev = CallCombinedOutput (Garden.gaolPath g) ["list"]
    /\ st_logs st' = st_logs st
    /\ Forall (fun ev' =>
                 exists c,
                   In c (Split (ev_out ev) (ascii_of_nat 10))
                   /\ c <> EmptyString
                   /\ ev_call ev' = CallCombinedOutput (Garden.gaolPath g) ["destroy"; c])
         evs.
Proof.
  destruct (Garden_Clean_run g st)
    as (r & st' & ev & evs & Hrun & Htr & Hlg & Hcall & _ & [k Hk] & _ & _).
  exists r, st', ev, evs. rewrite (added_app _ _ _ Htr).
  repeat split; try assumption.
  apply Forall_forall. intros ev' Hin.
  apply (in_map ev_call) in Hin. rewrite Hk in Hin.
  assert (Hin' : In (ev_call ev')
                   (destroyCalls (Garden.gaolPath g)
                      (Split (ev_out ev) (ascii_of_nat 10)))).
  { rewrite <- (firstn_skipn k). apply in_or_app. now left. }
  clear Hin. rename Hin' into Hin. unfold destroyCalls in Hin.
  apply in_map_iff in Hin as (c & Hc & Hfil).
  apply filter_In in Hfil as [Hl Hne].
  exists c. repeat split; try assumption; [|now symmetry].
  apply negb_true_iff, String.eqb_neq in Hne. exact Hne.
Qed.

(** X11.  [runGaol] never loses what the gaol client printed: on success it
    returns the output as it is, with a nil error; on failure it returns the
    empty string and an error whose text quotes the binary's path, the
    arguments joined by spaces, the text of the underlying error and the
    output. *)
Theorem runGaol_keeps_output {W : Type} `{Utils W}
    (g : Garden.GardenDriver) (args : list string) (st : St W) :
  let '(out, err, w') := CombinedOutput (Garden.gaolPath g) args (st_world st) in
  exists r st',
    Garden.runGaol g args st = (Returned r, st')
    /\ st_world st' = w'
    /\ match err with
       | None => r = (out, None)
       | Some e =>
           exists e',
             r = (EmptyString, Some e')
             /\ Contains (Error e') (Garden.gaolPath g) = true
             /\ Contains (Error e') (Join args " ") = true
             /\ Contains (Error e') (Error e) = true
             /\ Contains (Error e') out = true
       end.
Proof.
  destruct (CombinedOutput (Garden.gaolPath g) args (st_world st))
    as [[out err] w'] eqn:E.
  destruct err as [e|].
  - rewrite (runGaol_failed g args st out e w' E).
    eexists _, _. split; [reflexivity|]. split; [reflexivity|].
    eexists. split; [reflexivity|]. apply gaol_message_quotes.
  - rewrite (runGaol_ok g args st out w' E).
    eexists _, _. now repeat split.
Qed.

(** X12.  [Run] and [Remove] of the Garden driver look at a handle's name
    and detached flag only.  For two handles, of whatever container types,
    with the same name and the same flag, [Run] on the first is the one timed
    command [run], the name, [-a] exactly when the handle is not detached,
    and [-c whoami]; [Remove] is the one timed command [destroy] and the
    name.  The image and the trace flag play no part. *)
Theorem Garden_operations_use_name_and_flag {W : Type} `{Utils W}
    {C1 : Type} `{Container C1} {C2 : Type} `{Container C2}
    (g : Garden.GardenDriver) (c1 : C1) (c2 : C2) (st : St W) :
  Name c1 = Name c2 ->
  Detached c1 = Detached c2 ->
  Garden.Run g c1 st
  = timedCall (Garden.gaolPath g)
      ("run " ++ Name c2 ++ (if Detached c2 then EmptyString else " -a")
       ++ " -c whoami") st
  /\ Garden.Remove g c1 st
     = timedCall (Garden.gaolPath g) ("destroy " ++ Name c2) st.
Proof.
  intros En Ed.
  unfold Garden.Run, Garden.Remove, execTimedCmd, timedCall.
  rewrite En, Ed. split; [|reflexivity].
  destruct (Detached c2); cbn [negb]; repeat rewrite append_assoc; reflexivity.
Qed.

Lemma Garden_operations_use_name_and_flag_witness :
  Garden.Run (Garden.mkGardenDriver "gaol")
    (Garden.mkGardenContainer "bb-ctr-1" false)
    (GaolSim.start (GaolSim.mkWorld true ["bb-ctr-1"]))
  = timedCall "gaol" "run bb-ctr-1 -a -c whoami"
      (GaolSim.start (GaolSim.mkWorld true ["bb-ctr-1"])).
Proof.
  refine (proj1 (Garden_operations_use_name_and_flag
                   (Garden.mkGardenDriver "gaol")
                   (Garden.mkGardenContainer "bb-ctr-1" false)
                   (Docker.newDockerContainer "bb-ctr-1" "alpine" "date" false true)
                   (GaolSim.start (GaolSim.mkWorld true ["bb-ctr-1"])) _ _));
    reflexivity.
Defined.

(** *** The parser on well-formed texts *)











Section LayoutFacts.
Import Docker.






End LayoutFacts.




